(** * Bulgarian-Waters-Service: the cache and the SPARQL client

    A shallow embedding of [src/cache/cacheManager.js] (class
    [CacheManager]) and of [src/utils/sparqlClient.js] (class
    [SparqlClient], the revision that uses the cache).

    Conventions of the embedding:
    - a JavaScript string is a [string]; [charCodeAt] is the code of the
      character, [toLowerCase] acts on the letters A-Z;
    - [Date.now()] and every ttl of the program are integers (or [NaN],
      which [parseInt] yields for an unset [CACHE_TTL]); sums of them are
      exact in a double, so they are computed in [Z];
    - the numbers read by [parseFloat] are IEEE 754 binary64 values,
      [spec_float] of the Standard Library;
    - the [Map] of the cache manager is a [gmap string _];
    - a method that reads the clock, touches the cache or awaits the
      endpoint is a function of the [World]; [console.log] is left out.

    The earlier revision of the client, without the cache, has the same
    [transformResults] and the same tests on the filters in
    [buildWaterFeaturesQuery]; its capacity filter names the property
    [wdt:P1157] and its default limit is 100. *)

From Stdlib Require Import ZArith Ascii String DecimalString SpecFloat Lia.
From stdpp Require Import gmap strings list fin_maps.

Set Default Proof Using "Type".

(** ** JavaScript strings *)

Module JsString.

Definition charCode (c : ascii) : Z := Z.of_N (N_of_ascii c).

Definition isUpper (c : ascii) : bool :=
  (65 <=? charCode c)%Z && (charCode c <=? 90)%Z.

Definition lowerChar (c : ascii) : ascii :=
  if isUpper c then ascii_of_N (N_of_ascii c + 32) else c.

(** [String.prototype.toLowerCase] *)
Fixpoint toLowerCase (s : string) : string :=
  match s with
  | EmptyString => EmptyString
  | String c s' => String (lowerChar c) (toLowerCase s')
  end.

(** [String.prototype.startsWith] *)
Fixpoint startsWith (s p : string) {struct p} : bool :=
  match p, s with
  | EmptyString, _ => true
  | String _ _, EmptyString => false
  | String a p', String b s' => if ascii_dec a b then startsWith s' p' else false
  end.

(** [String.prototype.includes] *)
Fixpoint includes (s p : string) : bool :=
  startsWith s p ||
  match s with
  | EmptyString => false
  | String _ s' => includes s' p
  end.

(** [s.split(sep)] for a separator of one character: the segments
    between the separators, at least one. *)
Fixpoint split (sep : ascii) (s : string) : list string :=
  match s with
  | EmptyString => [EmptyString]
  | String c s' =>
      if ascii_dec c sep then EmptyString :: split sep s'
      else match split sep s' with
           | seg :: rest => String c seg :: rest
           | [] => [String c EmptyString]
           end
  end.

(** [Array.prototype.pop] on the result of a [split]: its last segment. *)
Definition pop (segs : list string) : string := List.last segs EmptyString.

Definition dquote : string := String (ascii_of_nat 34) EmptyString.

(** Decimal representation of an integer, [Number.prototype.toString]
    on an integer below 10^21. *)
Definition ofZ (z : Z) : string := NilZero.string_of_int (Z.to_int z).

Fixpoint concat (l : list string) : string :=
  match l with
  | [] => EmptyString
  | s :: l' => s +:+ concat l'
  end.

End JsString.

(** ** 32-bit integer operators *)

Module Int32.

(** ToInt32 of an integer value *)
Definition toInt32 (z : Z) : Z := ((z + 2 ^ 31) mod 2 ^ 32 - 2 ^ 31)%Z.

(** [a << n] *)
Definition shl (a n : Z) : Z := toInt32 (Z.shiftl (toInt32 a) (n mod 32)).

(** [a & b] *)
Definition and (a b : Z) : Z := toInt32 (Z.land (toInt32 a) (toInt32 b)).

End Int32.

(** ** CacheManager.hashString *)

(** One turn of the loop:
    [hash = ((hash << 5) - hash) + char; hash = hash & hash]. *)
Definition hashStep (hash : Z) (c : ascii) : Z :=
  let char := JsString.charCode c in
  let hash := (Int32.shl hash 5 - hash + char)%Z in
  Int32.and hash hash.

Fixpoint hashLoop (hash : Z) (str : string) {struct str} : Z :=
  match str with
  | EmptyString => hash
  | String c str' => hashLoop (hashStep hash c) str'
  end.

Definition hashString (str : string) : string :=
  JsString.ofZ (hashLoop 0 str).

(** ** Integers of the program: [Date.now()], ttls and expiry times *)

(** What [parseInt(_, 10)] returns, and what sums of such values are. *)
Inductive JsInt : Type :=
  | NaN
  | Int (z : Z).

(** [now + ttl] with [now] taken from [Date.now()] *)
Definition addTtl (now : Z) (ttl : JsInt) : JsInt :=
  match ttl with
  | NaN => NaN
  | Int t => Int (now + t)
  end.

(** [now > expiryTime]; every comparison with [NaN] is false. *)
Definition nowGt (now : Z) (expiryTime : JsInt) : bool :=
  match expiryTime with
  | NaN => false
  | Int e => (e <? now)%Z
  end.

(** ** The world a method runs in *)

(** What a thrown value can be. *)
Inductive JsError : Type :=
  | TypeError
  | Error (message : string)
  | Rejected.

(** Result of [await fetch(url)] followed by [response.json()]:
    the promise rejects, the response is not ok and has a text body, or
    it is ok and its body parses to [R]. *)
Inductive Response (R : Type) : Type :=
  | FetchRejected
  | NotOk (body : string)
  | OkJson (result : R).
Arguments FetchRejected {R}.
Arguments NotOk {R} body.
Arguments OkJson {R} result.

Record CacheEntry (V : Type) : Type := mkEntry {
  data : V;
  expiryTime : JsInt
}.
Arguments mkEntry {V} data expiryTime.
Arguments data {V} _.
Arguments expiryTime {V} _.

(** [V] is the type of the cached values, [R] of the bodies the endpoint
    answers.  [clock n] is what the [n]-th call of [Date.now()] returns and
    [endpoint n q] what the [n]-th request, with query text [q], is answered;
    [reads] counts the calls of [Date.now()] and [sent] lists the requests
    made so far, latest first. *)
Record World (V R : Type) : Type := mkWorld {
  cache : gmap string (CacheEntry V);
  defaultTTL : JsInt;
  clock : nat -> Z;
  reads : nat;
  endpoint : nat -> string -> Response R;
  sent : list string
}.
Arguments mkWorld {V R} cache defaultTTL clock reads endpoint sent.
Arguments cache {V R} _.
Arguments defaultTTL {V R} _.
Arguments clock {V R} _.
Arguments reads {V R} _.
Arguments endpoint {V R} _.
Arguments sent {V R} _.

Definition withCache {V R} (w : World V R) (c : gmap string (CacheEntry V)) : World V R :=
  mkWorld c (defaultTTL w) (clock w) (reads w) (endpoint w) (sent w).

Inductive Outcome (A : Type) : Type :=
  | Return (a : A)
  | Throw (e : JsError).
Arguments Return {A} a.
Arguments Throw {A} e.

(** A method: from the world before the call to its outcome and the world
    after it.  A throw keeps the effects made before it. *)
Definition M (V R A : Type) : Type := World V R -> Outcome A * World V R.

Definition ret {V R A} (a : A) : M V R A := fun w => (Return a, w).

Definition throw {V R A} (e : JsError) : M V R A := fun w => (Throw e, w).

Definition bind {V R A B} (m : M V R A) (k : A -> M V R B) : M V R B :=
  fun w =>
    match m w with
    | (Return a, w') => k a w'
    | (Throw e, w') => (Throw e, w')
    end.

(** [try { m } catch (error) { h error }] *)
Definition tryCatch {V R A} (m : M V R A) (h : JsError -> M V R A) : M V R A :=
  fun w =>
    match m w with
    | (Return a, w') => (Return a, w')
    | (Throw e, w') => h e w'
    end.

Notation "'let*' x ':=' m 'in' k" := (bind m (fun x => k))
  (at level 10, x name, m at level 100, k at level 200).
Notation "m ';;' k" := (bind m (fun _ => k))
  (at level 100, k at level 200, right associativity).

(** The time the next call of [Date.now()] returns. *)
Definition nextNow {V R} (w : World V R) : Z := clock w (reads w).

(** The world once that call has been made. *)
Definition tick {V R} (w : World V R) : World V R :=
  mkWorld (cache w) (defaultTTL w) (clock w) (S (reads w)) (endpoint w) (sent w).

(** [Date.now()] *)
Definition dateNow {V R} : M V R Z :=
  fun w => (Return (nextNow w), tick w).

(** ** CacheManager *)

Module CacheManager.
Section Methods.
Context {V R : Type}.

(** [this.cache.set(key, entry)] *)
Definition mapSet (key : string) (entry : CacheEntry V) : M V R unit :=
  fun w => (Return tt, withCache w (<[key := entry]> (cache w))).

(** [this.cache.delete(key)] *)
Definition mapDelete (key : string) : M V R unit :=
  fun w => (Return tt, withCache w (delete key (cache w))).

(** [this.cache.get(key)], [None] for [undefined] *)
Definition mapGet (key : string) : M V R (option (CacheEntry V)) :=
  fun w => (Return (cache w !! key), w).

(** [set(key, data, ttl = this.defaultTTL)]; [None] is the omitted ttl. *)
Definition set (key : string) (data : V) (ttl : option JsInt) : M V R V :=
  fun w =>
    let ttl := match ttl with Some t => t | None => defaultTTL w end in
    (let* now := dateNow in
     let expiryTime := addTtl now ttl in
     mapSet key (mkEntry data expiryTime);;
     ret data) w.

(** [get(key)]; [None] is [null]. *)
Definition get (key : string) : M V R (option V) :=
  let* found := mapGet key in
  match found with
  | None => ret None
  | Some cacheEntry =>
      let* now := dateNow in
      if nowGt now (expiryTime cacheEntry) then
        mapDelete key;; ret None
      else ret (Some (data cacheEntry))
  end.

(** [cacheQuery(queryString, data, ttl = this.defaultTTL)] *)
Definition cacheQuery (queryString : string) (data : V) (ttl : option JsInt) : M V R V :=
  let queryKey := hashString queryString in
  set queryKey data ttl.

(** [getCachedQuery(queryString)] *)
Definition getCachedQuery (queryString : string) : M V R (option V) :=
  let queryKey := hashString queryString in
  get queryKey.

(** The loop of [cleanupExpiredEntries] over [this.cache.entries()]: the
    entry in hand is deleted from the map when it has expired; deleting it
    does not disturb the iteration over the others. *)
Fixpoint cleanupLoop (now : Z) (entries : list (string * CacheEntry V)) : M V R unit :=
  match entries with
  | [] => ret tt
  | (key, entry) :: rest =>
      (if nowGt now (expiryTime entry) then mapDelete key else ret tt);;
      cleanupLoop now rest
  end.

(** [cleanupExpiredEntries()] *)
Definition cleanupExpiredEntries : M V R unit :=
  let* now := dateNow in
  fun w => cleanupLoop now (map_to_list (cache w)) w.

(** [clear()] *)
Definition clear : M V R unit :=
  fun w => (Return tt, withCache w ∅).

End Methods.
End CacheManager.

(** ** JavaScript numbers read from text *)

Module JsNumber.

(** A Number is a binary64 value. *)
Definition t : Type := spec_float.

Definition prec : Z := 53.
Definition emax : Z := 1024.

(** ToBoolean of a Number: false for [+0], [-0] and [NaN]. *)
Definition toBoolean (x : t) : bool :=
  match x with
  | S754_zero _ | S754_nan => false
  | S754_infinity _ | S754_finite _ _ _ => true
  end.

(** The Number nearest to [m * 10 ^ e10], ties to even, with sign [neg]. *)
Definition ofDecimal (neg : bool) (m e10 : Z) : t :=
  match m with
  | Z0 => S754_zero neg
  | Zneg _ => S754_nan
  | Zpos p =>
      if (0 <=? e10)%Z then
        binary_round prec emax neg (Z.to_pos (Zpos p * 10 ^ e10)) 0
      else
        let '(q, e, l) := SFdiv_core_binary prec emax (Zpos p) 0 (10 ^ (- e10)) 0 in
        binary_round_aux prec emax neg q e l
  end.

Definition isWhiteSpace (c : ascii) : bool :=
  let n := N_of_ascii c in
  ((9 <=? n) && (n <=? 13) || (n =? 32) || (n =? 160))%N.

Definition isDigit (c : ascii) : bool :=
  let n := N_of_ascii c in ((48 <=? n) && (n <=? 57))%N.

Definition digitValue (c : ascii) : Z := Z.of_N (N_of_ascii c) - 48.

Fixpoint trimStart (s : string) : string :=
  match s with
  | String c s' => if isWhiteSpace c then trimStart s' else s
  | EmptyString => s
  end.

(** The longest prefix of decimal digits, as [(value, count, rest)], the
    value continuing [acc]. *)
Fixpoint digits (acc : Z) (n : Z) (s : string) : Z * Z * string :=
  match s with
  | String c s' =>
      if isDigit c then digits (10 * acc + digitValue c) (n + 1) s' else (acc, n, s)
  | EmptyString => (acc, n, s)
  end.

(** ExponentPart, when one follows: its value. *)
Definition exponentPart (s : string) : Z :=
  match s with
  | String c s' =>
      if (Ascii.eqb c "e" || Ascii.eqb c "E")%bool then
        match s' with
        | String "+" s'' =>
            let '(v, n, _) := digits 0 0 s'' in if (0 <? n)%Z then v else 0
        | String "-" s'' =>
            let '(v, n, _) := digits 0 0 s'' in if (0 <? n)%Z then - v else 0
        | _ =>
            let '(v, n, _) := digits 0 0 s' in if (0 <? n)%Z then v else 0
        end
      else 0
  | EmptyString => 0
  end%Z.

(** The value of the longest prefix that is a StrUnsignedDecimalLiteral. *)
Definition unsignedLiteral (neg : bool) (s : string) : t :=
  if JsString.startsWith s "Infinity" then S754_infinity neg
  else
    let '(i, ni, r1) := digits 0 0 s in
    match r1 with
    | String "." r1' =>
        let '(m, nf, r2) := digits i 0 r1' in
        if ((ni =? 0) && (nf =? 0))%Z then S754_nan
        else ofDecimal neg m (exponentPart r2 - nf)
    | _ =>
        if (ni =? 0)%Z then S754_nan
        else ofDecimal neg i (exponentPart r1)
    end.

(** [parseFloat(string)] *)
Definition parseFloat (s : string) : t :=
  match trimStart s with
  | String "+" s' => unsignedLiteral false s'
  | String "-" s' => unsignedLiteral true s'
  | s' => unsignedLiteral false s'
  end.

(** *** Number::toString *)

Definition eqb (x y : t) : bool :=
  match x, y with
  | S754_zero a, S754_zero b => Bool.eqb a b
  | S754_infinity a, S754_infinity b => Bool.eqb a b
  | S754_nan, S754_nan => true
  | S754_finite a m e, S754_finite b m' e' =>
      Bool.eqb a b && Pos.eqb m m' && Z.eqb e e'
  | _, _ => false
  end.

(** The Number of an integer literal. *)
Definition ofZ (z : Z) : t := binary_normalize prec emax z 0 false.

(** [(a, b)] stands for the rational [a / b]; multiplication by [10 ^ p]. *)
Definition scale10 (ab : Z * Z) (p : Z) : Z * Z :=
  if (0 <=? p)%Z then (ab.1 * 10 ^ p, ab.2)%Z else (ab.1, ab.2 * 10 ^ (- p))%Z.

(** The least [n >= n0] with [a / b < 10 ^ n], within [fuel] steps. *)
Fixpoint magnitude (fuel : nat) (ab : Z * Z) (n0 : Z) : Z :=
  match fuel with
  | O => n0
  | S fuel' =>
      let y := scale10 ab (- n0) in
      if (y.1 <? y.2)%Z then n0 else magnitude fuel' ab (n0 + 1)
  end.

(** The digits [s] and the exponent [n] of Number::toString for
    [x = m * 2 ^ e]: the least number [k] of digits for which some
    [s * 10 ^ (n - k)] reads back as [x], and for it the [s] nearest to [x]. *)
Fixpoint shortest (fuel : nat) (x : t) (ab : Z * Z) (n k : Z) : Z * Z * Z :=
  let y := scale10 ab (k - n) in
  let s0 := (y.1 / y.2)%Z in
  let r := (y.1 mod y.2)%Z in
  let s1 := (s0 + 1)%Z in
  let back s := eqb (ofDecimal false s (n - k)) x in
  let upFirst := ((y.2 <? 2 * r) || ((y.2 =? 2 * r) && Z.odd s0))%Z in
  let '(c1, c2) := if upFirst then (s1, s0) else (s0, s1) in
  let norm s := if (s =? 10 ^ k)%Z then (s / 10, n + 1, k)%Z else (s, n, k) in
  if back c1 then norm c1
  else if back c2 then norm c2
  else match fuel with
       | O => (s0, n, k)
       | S fuel' => shortest fuel' x ab n (k + 1)
       end.

Fixpoint zeros (n : nat) : string :=
  match n with
  | O => EmptyString
  | S n' => String "0" (zeros n')
  end.

Definition takeStr (n : nat) (s : string) : string := String.substring 0 n s.
Definition dropStr (n : nat) (s : string) : string :=
  String.substring n (String.length s - n) s.

Definition formatDigits (s n k : Z) : string :=
  let ds := JsString.ofZ s in
  if ((k <=? n) && (n <=? 21))%Z then ds +:+ zeros (Z.to_nat (n - k))
  else if ((0 <? n) && (n <=? 21))%Z then
    takeStr (Z.to_nat n) ds +:+ "." +:+ dropStr (Z.to_nat n) ds
  else if ((-6 <? n) && (n <=? 0))%Z then
    "0." +:+ zeros (Z.to_nat (- n)) +:+ ds
  else
    let e := (n - 1)%Z in
    let es := (if (e <? 0)%Z then "-" else "+") +:+ JsString.ofZ (Z.abs e) in
    if (k =? 1)%Z then ds +:+ "e" +:+ es
    else takeStr 1 ds +:+ "." +:+ dropStr 1 ds +:+ "e" +:+ es.

Definition toStringPos (m : positive) (e : Z) : string :=
  let ab := if (0 <=? e)%Z then (Zpos m * 2 ^ e, 1)%Z else (Zpos m, 2 ^ (- e))%Z in
  let est := (((Zpos (digits2_pos m) + e - 1) * 30103) / 100000 - 1)%Z in
  let n := magnitude 6 ab est in
  let '(s, n', k) := shortest 17 (S754_finite false m e) ab n 1 in
  formatDigits s n' k.

(** [String(x)], the text a template literal puts for a Number. *)
Definition toString (x : t) : string :=
  match x with
  | S754_nan => "NaN"
  | S754_zero _ => "0"
  | S754_infinity false => "Infinity"
  | S754_infinity true => "-Infinity"
  | S754_finite false m e => toStringPos m e
  | S754_finite true m e => "-" +:+ toStringPos m e
  end.

End JsNumber.

(** ** Records of the SPARQL client *)

(** A term of a SPARQL JSON result; only its [value] is read. *)
Record RdfTerm : Type := mkTerm { value : string }.

(** One row of the result: the variables of the SELECT clause.  [item] is
    bound in every row (the queries select it and [transformResults] reads
    [binding.item.value] without a test); the others may be unbound. *)
Module Binding.
Record t : Type := mk {
  item : RdfTerm;
  itemLabel : option RdfTerm;
  typeLabel : option RdfTerm;
  coord : option RdfTerm;
  locatedInLabel : option RdfTerm;
  width : option RdfTerm;
  length : option RdfTerm;
  surfaceArea : option RdfTerm;
  capacity : option RdfTerm;
  inception : option RdfTerm;
  description : option RdfTerm
}.
End Binding.

(** [{ results: { bindings: [...] } }]; a property that is missing (or
    [null]) is [None]. *)
Record ResultsContainer : Type := mkContainer { bindings : option (list Binding.t) }.
Record RawResultSet : Type := mkRaw { results : option ResultsContainer }.

Inductive WaterFeatureType : Type := LAKE | DAM | RESERVOIR | RIVER.

Record Coordinates : Type := mkCoordinates {
  latitude : JsNumber.t;
  longitude : JsNumber.t
}.

(** The object [transformResults] builds for a row; [None] is [null]. *)
Module WaterFeature.
Record t : Type := mk {
  id : string;
  name : string;
  type : WaterFeatureType;
  location : option Coordinates;
  locatedIn : option string;
  width : option JsNumber.t;
  length : option JsNumber.t;
  surfaceArea : option JsNumber.t;
  capacity : option JsNumber.t;
  inceptionDate : option string;
  wikidataUrl : string;
  description : option string
}.
End WaterFeature.

(** What the cache holds: the list of features of a type, one feature, or
    the body of a response. *)
Inductive JsValue : Type :=
  | Features (l : list WaterFeature.t)
  | Feature (f : WaterFeature.t)
  | Raw (r : RawResultSet).

(** A cached value read as a result set: an array or a feature has no
    [results] property. *)
Definition asResults (v : JsValue) : RawResultSet :=
  match v with
  | Raw r => r
  | Features _ | Feature _ => mkRaw None
  end.

(** ** The regular expression of the coordinates *)

(** The longest prefix of characters that satisfy [p], and the rest. *)
Fixpoint span (p : ascii -> bool) (s : string) : string * string :=
  match s with
  | String c s' =>
      if p c then let '(a, b) := span p s' in (String c a, b) else (EmptyString, s)
  | EmptyString => (EmptyString, EmptyString)
  end.

(** [/Point\(([^ ]+) ([^)]+)\)/] tried at the start of [s]: the two groups.
    The first group runs up to the first space and the second up to the
    first closing parenthesis; no shorter run can be followed by the
    character the pattern asks for. *)
Definition matchPointHere (s : string) : option (string * string) :=
  if JsString.startsWith s "Point(" then
    let '(g1, r1) := span (fun c => negb (Ascii.eqb c " ")) (JsNumber.dropStr 6 s) in
    match g1, r1 with
    | String _ _, String _ r1' =>
        let '(g2, r2) := span (fun c => negb (Ascii.eqb c ")")) r1' in
        match g2, r2 with
        | String _ _, String _ _ => Some (g1, g2)
        | _, _ => None
        end
    | _, _ => None
    end
  else None.

(** [coordValue.match(/Point\(([^ ]+) ([^)]+)\)/)]: the groups of the
    leftmost match, [None] for [null]. *)
Fixpoint matchPoint (s : string) : option (string * string) :=
  match matchPointHere s with
  | Some m => Some m
  | None =>
      match s with
      | String _ s' => matchPoint s'
      | EmptyString => None
      end
  end.

(** ** SparqlClient *)

Module SparqlClient.

Definition nl : string := String (ascii_of_nat 10) EmptyString.
Definition dq : string := JsString.dquote.

Definition waterFeatureTypes : list string := ["LAKE"; "DAM"; "RESERVOIR"; "RIVER"].
Definition queryLimit : Z := 500.

(** [this.waterFeatureTypes.includes(type)] *)
Definition isWaterFeatureType (type : string) : bool :=
  existsb (String.eqb type) waterFeatureTypes.

(** [typeMapping[key]] *)
Definition typeMapping (key : string) : string :=
  if String.eqb key "LAKE" then "Q23397"
  else if String.eqb key "DAM" then "Q12323"
  else if String.eqb key "RESERVOIR" then "Q131681"
  else if String.eqb key "RIVER" then "Q4022"
  else "undefined".

(** [sortMapping[sortBy]] for the properties the object itself has *)
Definition sortMapping (sortBy : string) : option string :=
  if String.eqb sortBy "name" then Some "?name"
  else if String.eqb sortBy "surfaceArea" then Some "?surfaceArea"
  else if String.eqb sortBy "capacity" then Some "?capacity"
  else if String.eqb sortBy "width" then Some "?width"
  else if String.eqb sortBy "length" then Some "?length"
  else None.

(** [array.join(sep)] *)
Fixpoint join (sep : string) (l : list string) : string :=
  match l with
  | [] => EmptyString
  | [s] => s
  | s :: l' => s +:+ sep +:+ join sep l'
  end.

(** The argument of [buildWaterFeaturesQuery]; [None] is a property left
    out (or [null] for the four filters). *)
Record QueryParams : Type := mkParams {
  type : option string;
  region : option string;
  minCapacity : option JsNumber.t;
  minSurfaceArea : option JsNumber.t;
  sortBy : option string;
  sortOrder : option string;
  limit : option Z;
  offset : option Z
}.

(** The type filter of the [else] branch: all four types. *)
Definition defaultTypeFilter : string :=
  let defaultTypes :=
    join " " (List.map (fun key => "wd:" +:+ typeMapping key) waterFeatureTypes) in
  JsString.concat
    [ nl;
      "                VALUES ?typeId {"; defaultTypes; "}"; nl;
      "                ?item wdt:P31/wdt:P279* ?typeId."; nl;
      "            " ].

(** [if (type && this.waterFeatureTypes.includes(type)) ... else ...] *)
Definition typeFilterOf (type : option string) : string :=
  match type with
  | Some type =>
      if isWaterFeatureType type then
        JsString.concat [ "?item wdt:P31/wdt:P279* wd:"; typeMapping type; "." ]
      else defaultTypeFilter
  | None => defaultTypeFilter
  end.

(** [if (region) ...]: the empty string is falsy. *)
Definition regionFilterOf (region : option string) : string :=
  match region with
  | Some (String c r) =>
      let region := String c r in
      JsString.concat
        [ nl;
          "                ?item wdt:P131/wdt:P131* ?region."; nl;
          "                ?region rdfs:label ?regionLabel."; nl;
          "                FILTER(CONTAINS(LCASE(?regionLabel), LCASE("; dq; region; dq; ")))."; nl;
          "            " ]
  | Some EmptyString | None => EmptyString
  end.

(** [if (minCapacity) ...]: the test is ToBoolean of the number. *)
Definition capacityFilterOf (minCapacity : option JsNumber.t) : string :=
  match minCapacity with
  | Some minCapacity =>
      if JsNumber.toBoolean minCapacity then
        JsString.concat
          [ nl;
            "                ?item wdt:P2234 ?capacity."; nl;
            "                FILTER(?capacity >= "; JsNumber.toString minCapacity; ")."; nl;
            "            " ]
      else EmptyString
  | None => EmptyString
  end.

(** [if (minSurfaceArea) ...] *)
Definition surfaceAreaFilterOf (minSurfaceArea : option JsNumber.t) : string :=
  match minSurfaceArea with
  | Some minSurfaceArea =>
      if JsNumber.toBoolean minSurfaceArea then
        JsString.concat
          [ nl;
            "                ?item wdt:P2046 ?surfaceArea."; nl;
            "                FILTER(?surfaceArea >= "; JsNumber.toString minSurfaceArea; ")."; nl;
            "            " ]
      else EmptyString
  | None => EmptyString
  end.

(** The template of the query, around its four filters. *)
Definition queryTemplate
    (typeFilter regionFilter capacityFilter surfaceAreaFilter : string)
    (sortOrder sortField : string) (limit offset : Z) : string :=
  JsString.concat
    [ nl;
      "            SELECT DISTINCT ?itemLabel (SAMPLE(?item) AS ?item) (SAMPLE(?typeId) AS ?typeId) "; nl;
      "                            (SAMPLE(?typeLabel) AS ?typeLabel) (SAMPLE(?coord) AS ?coord) "; nl;
      "                            (SAMPLE(?locatedInLabel) AS ?locatedInLabel) (SAMPLE(?width) AS ?width) "; nl;
      "                            (SAMPLE(?length) AS ?length) (SAMPLE(?surfaceArea) AS ?surfaceArea) "; nl;
      "                            (SAMPLE(?capacity) AS ?capacity) (SAMPLE(?inception) AS ?inception) "; nl;
      "                            (SAMPLE(?description) AS ?description)"; nl;
      "            WHERE {"; nl;
      "                # Bulgaria constraint"; nl;
      "                ?item wdt:P17 wd:Q219. # located in Bulgaria"; nl;
      "                "; nl;
      "                # Type constraint"; nl;
      "                "; typeFilter; nl;
      "                "; nl;
      "                # Get the specific type"; nl;
      "                ?item wdt:P31 ?typeId."; nl;
      "                ?typeId rdfs:label ?typeLabel."; nl;
      "                FILTER(LANG(?typeLabel) = "; dq; "en"; dq; ")"; nl;
      "                "; nl;
      "                # Name"; nl;
      "                ?item rdfs:label ?itemLabel."; nl;
      "                FILTER(LANG(?itemLabel) = "; dq; "en"; dq; ")"; nl;
      "                "; nl;
      "                # Coordinates"; nl;
      "                OPTIONAL { ?item wdt:P625 ?coord. }"; nl;
      "                "; nl;
      "                # Location"; nl;
      "                OPTIONAL { "; nl;
      "                    ?item wdt:P131 ?locatedIn. "; nl;
      "                    ?locatedIn rdfs:label ?locatedInLabel."; nl;
      "                    FILTER(LANG(?locatedInLabel) = "; dq; "en"; dq; ")"; nl;
      "                }"; nl;
      nl;
      "                # Vertical depth"; nl;
      "                OPTIONAL { ?item wdt:P4511 ?depth. }"; nl;
      "                "; nl;
      "                # Length"; nl;
      "                OPTIONAL { ?item wdt:P2043 ?length. }"; nl;
      nl;
      "                # Width"; nl;
      "                OPTIONAL { ?item wdt:P2049 ?width. }"; nl;
      "                "; nl;
      "                # Surface area"; nl;
      "                OPTIONAL { ?item wdt:P2046 ?surfaceArea. }"; nl;
      "                "; nl;
      "                # Capacity"; nl;
      "                OPTIONAL { ?item wdt:P2234 ?capacity. }"; nl;
      "                "; nl;
      "                # Inception date"; nl;
      "                OPTIONAL { ?item wdt:P571 ?inception. }"; nl;
      "                "; nl;
      "                # Description"; nl;
      "                OPTIONAL {"; nl;
      "                    ?item schema:description ?description."; nl;
      "                    FILTER(LANG(?description) = "; dq; "en"; dq; ")"; nl;
      "                }"; nl;
      "                "; nl;
      "                "; regionFilter; nl;
      "                "; capacityFilter; nl;
      "                "; surfaceAreaFilter; nl;
      "            }"; nl;
      "            GROUP BY ?itemLabel"; nl;
      "            ORDER BY "; (if String.eqb sortOrder "DESC" then "DESC" else "ASC"); "("; sortField; ")"; nl;
      "            LIMIT "; JsString.ofZ limit; nl;
      "            OFFSET "; JsString.ofZ offset; nl;
      "        " ].

Definition buildWaterFeaturesQuery (params : QueryParams) : string :=
  let sortBy := default "name" (sortBy params) in
  let sortOrder := default "ASC" (sortOrder params) in
  let limit := default queryLimit (limit params) in
  let offset := default 0%Z (offset params) in
  let typeFilter := typeFilterOf (type params) in
  let regionFilter := regionFilterOf (region params) in
  let capacityFilter := capacityFilterOf (minCapacity params) in
  let surfaceAreaFilter := surfaceAreaFilterOf (minSurfaceArea params) in
  let sortField := default "?name" (sortMapping sortBy) in
  queryTemplate typeFilter regionFilter capacityFilter surfaceAreaFilter
    sortOrder sortField limit offset.

Definition buildWaterFeatureByIdQuery (id : string) : string :=
  JsString.concat
    [ nl;
      "        SELECT ?item ?itemLabel ?typeId ?typeLabel ?coord ?locatedInLabel "; nl;
      "                ?width ?length ?surfaceArea ?capacity ?inception ?description"; nl;
      "        WHERE {"; nl;
      "            BIND(wd:"; id; " AS ?item)"; nl;
      "            "; nl;
      "            # Get the specific type"; nl;
      "            ?item wdt:P31 ?typeId."; nl;
      "            ?typeId rdfs:label ?typeLabel."; nl;
      "            FILTER(LANG(?typeLabel) = "; dq; "en"; dq; ")"; nl;
      "            "; nl;
      "            # Name"; nl;
      "            ?item rdfs:label ?itemLabel."; nl;
      "            FILTER(LANG(?itemLabel) = "; dq; "en"; dq; ")"; nl;
      "            "; nl;
      "            # Coordinates"; nl;
      "            OPTIONAL { ?item wdt:P625 ?coord. }"; nl;
      "            "; nl;
      "            # Location"; nl;
      "            OPTIONAL { "; nl;
      "            ?item wdt:P131 ?locatedIn. "; nl;
      "            ?locatedIn rdfs:label ?locatedInLabel."; nl;
      "            FILTER(LANG(?locatedInLabel) = "; dq; "en"; dq; ")"; nl;
      "            }"; nl;
      "            "; nl;
      "            # width"; nl;
      "            OPTIONAL { ?item wdt:P2048 ?width. }"; nl;
      "            "; nl;
      "            # Length"; nl;
      "            OPTIONAL { ?item wdt:P2043 ?length. }"; nl;
      "            "; nl;
      "            # Surface area"; nl;
      "            OPTIONAL { ?item wdt:P2046 ?surfaceArea. }"; nl;
      "            "; nl;
      "            # Capacity"; nl;
      "            OPTIONAL { ?item wdt:P2234 ?capacity. }"; nl;
      "            "; nl;
      "            # Inception date"; nl;
      "            OPTIONAL { ?item wdt:P571 ?inception. }"; nl;
      "            "; nl;
      "            # Description"; nl;
      "            OPTIONAL {"; nl;
      "            ?item schema:description ?description."; nl;
      "            FILTER(LANG(?description) = "; dq; "en"; dq; ")"; nl;
      "            }"; nl;
      "        }"; nl;
      "        LIMIT 1"; nl;
      "        " ].

(** The category of a row, from [binding.typeLabel]. *)
Definition typeOf (typeLabel : option RdfTerm) : WaterFeatureType :=
  match typeLabel with
  | Some term =>
      let typeLabel := JsString.toLowerCase (value term) in
      if JsString.includes typeLabel "dam" then DAM
      else if JsString.includes typeLabel "reservoir" then RESERVOIR
      else if JsString.includes typeLabel "river" then RIVER
      else if JsString.includes typeLabel "lake" then LAKE
      else LAKE
  | None => LAKE
  end.

(** [latitude] and [longitude] after the test of [binding.coord] and of the
    match, as [(latitude, longitude)]; [None] is [null]. *)
Definition parseCoord (coord : option RdfTerm)
  : option JsNumber.t * option JsNumber.t :=
  match coord with
  | Some term =>
      let coordValue := value term in
      match matchPoint coordValue with
      | Some (g1, g2) =>
          let longitude := JsNumber.parseFloat g1 in
          let latitude := JsNumber.parseFloat g2 in
          (Some latitude, Some longitude)
      | None => (None, None)
      end
  | None => (None, None)
  end.

(** ToBoolean of a variable that holds [null] or a Number. *)
Definition truthy (x : option JsNumber.t) : bool :=
  match x with
  | Some n => JsNumber.toBoolean n
  | None => false
  end.

(** [latitude && longitude ? { latitude, longitude } : null] *)
Definition locationOf (latitude longitude : option JsNumber.t) : option Coordinates :=
  if truthy latitude && truthy longitude then
    match latitude, longitude with
    | Some latitude, Some longitude => Some (mkCoordinates latitude longitude)
    | _, _ => None
    end
  else None.

(** The callback of the [map] in [transformResults]. *)
Definition transformBinding (binding : Binding.t) : WaterFeature.t :=
  let '(latitude, longitude) := parseCoord (Binding.coord binding) in
  let id := JsString.pop (JsString.split "/" (value (Binding.item binding))) in
  let type := typeOf (Binding.typeLabel binding) in
  WaterFeature.mk
    id
    (match Binding.itemLabel binding with Some t => value t | None => "Unknown" end)
    type
    (locationOf latitude longitude)
    (match Binding.locatedInLabel binding with Some t => Some (value t) | None => None end)
    (match Binding.width binding with
     | Some t => Some (JsNumber.parseFloat (value t)) | None => None end)
    (match Binding.length binding with
     | Some t => Some (JsNumber.parseFloat (value t)) | None => None end)
    (match Binding.surfaceArea binding with
     | Some t => Some (JsNumber.parseFloat (value t)) | None => None end)
    (match Binding.capacity binding with
     | Some t => Some (JsNumber.parseFloat (value t)) | None => None end)
    (match Binding.inception binding with Some t => Some (value t) | None => None end)
    ("https://www.wikidata.org/wiki/" +:+ id)
    (match Binding.description binding with Some t => Some (value t) | None => None end).

(** [transformResults(results)] *)
Definition transformResults (res : RawResultSet) : list WaterFeature.t :=
  match results res with
  | None => []
  | Some container =>
      match bindings container with
      | None => []
      | Some rows => transformBinding <$> rows
      end
  end.

(** *** Methods that run in the world *)

Definition W : Type := World JsValue RawResultSet.
Definition Method (A : Type) : Type := M JsValue RawResultSet A.

(** [await fetch(url, ...)] and the reading of the response: the request
    is recorded and answered by the endpoint. *)
Definition fetch (sparqlQuery : string) : Method (Response RawResultSet) :=
  fun w =>
    (Return (endpoint w (List.length (sent w)) sparqlQuery),
     mkWorld (cache w) (defaultTTL w) (clock w) (reads w) (endpoint w)
             (sparqlQuery :: sent w)).

(** [query(sparqlQuery)]; a cached value is an object or an array, hence
    truthy. *)
Definition query (sparqlQuery : string) : Method JsValue :=
  let* cachedResult := CacheManager.getCachedQuery sparqlQuery in
  match cachedResult with
  | Some cachedResult => ret cachedResult
  | None =>
      let* response := fetch sparqlQuery in
      match response with
      | FetchRejected => throw Rejected
      | NotOk error => throw (Error ("SPARQL query failed: " +:+ error))
      | OkJson result =>
          CacheManager.cacheQuery sparqlQuery (Raw result) None;;
          ret (Raw result)
      end
  end.

Definition paramsOfType (type : string) : QueryParams :=
  mkParams (Some type) None None None None None (Some queryLimit) None.

Definition twelveHours : Z := 12 * 60 * 60 * 1000.

(** The body of the [try] in [preloadCache] *)
Definition preloadType (type : string) : Method unit :=
  let query_ := buildWaterFeaturesQuery (paramsOfType type) in
  let* results := query query_ in
  let transformedResults := transformResults (asResults results) in
  CacheManager.set ("ALL_" +:+ type) (Features transformedResults)
    (Some (Int twelveHours));;
  ret tt.

(** The [for ... of] loop of [preloadCache] *)
Fixpoint preloadLoop (types : list string) : Method unit :=
  match types with
  | [] => ret tt
  | type :: rest =>
      tryCatch (preloadType type) (fun error => ret tt);;
      preloadLoop rest
  end.

(** [preloadCache()] *)
Definition preloadCache : Method unit := preloadLoop waterFeatureTypes.

(** [getAllFeaturesOfType(type)]; an array is truthy, and what the
    method returns is whatever the cache holds under the key. *)
Definition getAllFeaturesOfType (type : string) : Method JsValue :=
  if negb (isWaterFeatureType type) then
    throw (Error ("Invalid water feature type: " +:+ type))
  else
    let cacheKey := "ALL_" +:+ type in
    let* features := CacheManager.get cacheKey in
    match features with
    | Some features => ret features
    | None =>
        let query_ := buildWaterFeaturesQuery (paramsOfType type) in
        let* results := query query_ in
        let features := Features (transformResults (asResults results)) in
        CacheManager.set cacheKey features (Some (Int twelveHours));;
        ret features
    end.

(** [features.find(f => f.id === id)] *)
Definition findById (id : string) (features : list WaterFeature.t) : option WaterFeature.t :=
  List.find (fun f => String.eqb (WaterFeature.id f) id) features.

(** The loop of [getWaterFeatureById] over the type caches; [Some] is the
    feature the method returns from inside the loop.  A cached value that
    is not an array has no [find]. *)
Fixpoint findInTypeCaches (id : string) (types : list string)
  : Method (option WaterFeature.t) :=
  match types with
  | [] => ret None
  | type :: rest =>
      let* features := CacheManager.get ("ALL_" +:+ type) in
      match features with
      | Some (Features l) =>
          match findById id l with
          | Some feature => ret (Some feature)
          | None => findInTypeCaches id rest
          end
      | Some (Feature _) | Some (Raw _) => throw TypeError
      | None => findInTypeCaches id rest
      end
  end.

(** [getWaterFeatureById(id)]; [None] is [null]. *)
Definition getWaterFeatureById (id : string) : Method (option WaterFeature.t) :=
  let* hit := findInTypeCaches id waterFeatureTypes in
  match hit with
  | Some feature => ret (Some feature)
  | None =>
      let sparqlQuery := buildWaterFeatureByIdQuery id in
      let* results := query sparqlQuery in
      let transformedResults := transformResults (asResults results) in
      match transformedResults with
      | feature :: _ =>
          let cacheKey := "FEATURE_" +:+ id in
          CacheManager.set cacheKey (Feature feature) None;;
          ret (Some feature)
      | [] => ret None
      end
  end.

End SparqlClient.

(** * Properties *)

(** ** Values of the built-in functions *)

Example hashString_empty : hashString "" = "0".
Proof. reflexivity. Qed.

Example hashString_abc : hashString "abc" = "96354".
Proof. reflexivity. Qed.

Example hashString_wraps : hashString "zzzzzzzzzz" = "-1580979136".
Proof. vm_compute. reflexivity. Qed.

Example parseFloat_23_5 :
  JsNumber.parseFloat "23.5" = S754_finite false 6614661952700416 (-48).
Proof. vm_compute. reflexivity. Qed.

(** ** Properties of the cache manager *)

Section CacheManagerFacts.
Context {V R : Type}.
Implicit Types (w : World V R) (key : string) (v : V).

Lemma set_run w key v ttl :
  CacheManager.set key v (Some ttl) w =
    (Return v,
     withCache (tick w) (<[key := mkEntry v (addTtl (nextNow w) ttl)]> (cache w))).
Proof. reflexivity. Qed.

Lemma set_default_run w key v :
  CacheManager.set key v None w = CacheManager.set key v (Some (defaultTTL w)) w.
Proof. reflexivity. Qed.

Lemma get_absent w key :
  cache w !! key = None -> CacheManager.get key w = (Return None, w).
Proof.
  intros H. unfold CacheManager.get, bind, CacheManager.mapGet. by rewrite H.
Qed.

Lemma get_present w key e :
  cache w !! key = Some e ->
  CacheManager.get key w =
    if nowGt (nextNow w) (expiryTime e)
    then (Return None, withCache (tick w) (delete key (cache w)))
    else (Return (Some (data e)), tick w).
Proof.
  intros H. unfold CacheManager.get, bind, CacheManager.mapGet. rewrite H.
  unfold dateNow. by destruct (nowGt _ _).
Qed.

Lemma get_returns w key : exists o, (CacheManager.get key w).1 = Return o.
Proof.
  destruct (cache w !! key) as [e|] eqn:H.
  - rewrite (get_present _ _ _ H). destruct (nowGt _ _); eauto.
  - rewrite (get_absent _ _ H). eauto.
Qed.

(** Whether the loop of the cleanup, run over [entries], deletes [key]. *)
Definition deletes (now : Z) (entries : list (string * CacheEntry V)) key : bool :=
  existsb (fun ke => bool_decide (ke.1 = key) && nowGt now (expiryTime ke.2)) entries.

Lemma deletes_spec now entries key :
  deletes now entries key = true <->
  exists e, (key, e) ∈ entries /\ nowGt now (expiryTime e) = true.
Proof.
  unfold deletes. rewrite existsb_exists. split.
  - intros ([k e] & Hin & H). cbn in H. apply andb_true_iff in H as [Hk He].
    apply bool_decide_eq_true in Hk as <-. exists e.
    split; [by apply list_elem_of_In | done].
  - intros (e & Hin & He). exists (key, e). cbn.
    split; [by apply list_elem_of_In|]. rewrite He.
    by rewrite bool_decide_eq_true_2.
Qed.

(** The loop deletes the expired keys of the list it is given and touches
    nothing else. *)
Lemma cleanupLoop_run now (entries : list (string * CacheEntry V)) w :
  exists c,
    CacheManager.cleanupLoop now entries w = (Return tt, withCache w c) /\
    forall key,
      c !! key = if deletes now entries key then None else cache w !! key.
Proof.
  revert w. induction entries as [|[k e] rest IH]; intros w.
  - exists (cache w). split; [by destruct w | done].
  - cbn [CacheManager.cleanupLoop]. unfold bind.
    destruct (nowGt now (expiryTime e)) eqn:Hexp.
    + cbn. destruct (IH (withCache w (delete k (cache w)))) as (c & -> & Hc).
      exists c. split; [done|]. intros key. rewrite Hc.
      unfold deletes. cbn. fold (deletes now rest key). rewrite Hexp.
      destruct (deletes now rest key); [by rewrite orb_true_r|].
      rewrite orb_false_r, andb_true_r. case_bool_decide as Hk.
      * subst. by rewrite lookup_delete_eq.
      * by rewrite lookup_delete_ne.
    + cbn. destruct (IH w) as (c & -> & Hc).
      exists c. split; [done|]. intros key. rewrite Hc.
      unfold deletes. cbn. fold (deletes now rest key). rewrite Hexp.
      by rewrite andb_false_r.
Qed.

(** C1: what [set(k, v, t)] made at time [T] stores is what a [get(k)]
    made at time [T'] returns as long as [T' <= T + t]; once [T' > T + t]
    the [get] returns [null] and deletes the entry of [k].  A [get] returns
    in every world, it never throws. *)
Theorem get_after_set (w w2 : World V R) key v (t : Z) :
  let T := nextNow w in
  let w1 := (CacheManager.set key v (Some (Int t)) w).2 in
  let T' := nextNow w2 in
  cache w2 !! key = cache w1 !! key ->
  (CacheManager.set key v (Some (Int t)) w).1 = Return v /\
  CacheManager.get key w2 =
    (if (T' <=? T + t)%Z
     then (Return (Some v), tick w2)
     else (Return None, withCache (tick w2) (delete key (cache w2)))) /\
  (forall w3 : World V R, exists o, (CacheManager.get key w3).1 = Return o).
Proof.
  intros T w1 T' Hk. subst w1. rewrite set_run in Hk |- *. cbn in Hk.
  rewrite lookup_insert_eq in Hk.
  split; [done|]. split; [|intros; apply get_returns].
  rewrite (get_present _ _ _ Hk). cbn. fold T T'.
  destruct (Z.ltb_spec (T + t) T'), (Z.leb_spec T' (T + t)); try lia; done.
Qed.

(** C5: [cleanupExpiredEntries] called at time [now] leaves at every key
    what was there when the entry has not expired ([now > expiryTime] is
    false), with the same data and expiry, and nothing when it has expired. *)
Theorem cleanupExpiredEntries_exact (w : World V R) :
  let now := nextNow w in
  exists c,
    CacheManager.cleanupExpiredEntries w = (Return tt, withCache (tick w) c) /\
    forall key,
      c !! key =
        match cache w !! key with
        | Some e => if nowGt now (expiryTime e) then None else Some e
        | None => None
        end.
Proof.
  intros now. unfold CacheManager.cleanupExpiredEntries, bind, dateNow.
  destruct (cleanupLoop_run now (map_to_list (cache (tick w))) (tick w))
    as (c & Hrun & Hc).
  exists c. split; [exact Hrun|].
  intros key. rewrite Hc. cbn.
  destruct (deletes now (map_to_list (cache w)) key) eqn:H.
  - apply deletes_spec in H as (e & Hin & He).
    apply elem_of_map_to_list in Hin. by rewrite Hin, He.
  - destruct (cache w !! key) as [e|] eqn:Hl; [|done].
    destruct (nowGt now (expiryTime e)) eqn:He; [|done].
    assert (deletes now (map_to_list (cache w)) key = true) as Hd; [|congruence].
    apply deletes_spec. exists e. split; [by apply elem_of_map_to_list | done].
Qed.

End CacheManagerFacts.

(** ** Strings: [startsWith], [includes] and the pattern of the coordinates *)

#[local] Arguments String.append !_ _ / : simpl nomatch.

Lemma append_assoc (a b c : string) : (a +:+ b) +:+ c = a +:+ b +:+ c.
Proof. induction a as [|x a IH]; cbn; [done | by rewrite IH]. Qed.

Lemma startsWith_spec (s p : string) :
  JsString.startsWith s p = true <-> exists r, s = p +:+ r.
Proof.
  revert s. induction p as [|a p IH]; intros s; cbn.
  - split; eauto.
  - destruct s as [|b s]; [split; [done | by intros [? ?]]|].
    destruct (ascii_dec a b) as [->|Hne].
    + rewrite IH. split; intros [r Hr]; exists r; congruence.
    + split; [done|]. intros [r Hr]. congruence.
Qed.

(** [s.includes(p)] holds exactly when [p] occurs somewhere in [s]. *)
Lemma includes_spec (s p : string) :
  JsString.includes s p = true <-> exists pre post, s = pre +:+ p +:+ post.
Proof.
  induction s as [|c s IH]; cbn [JsString.includes].
  - rewrite orb_false_r, startsWith_spec. split.
    + intros [r Hr]. by exists EmptyString, r.
    + intros ([|x pre] & post & H); [by exists post | done].
  - rewrite orb_true_iff, startsWith_spec, IH. split.
    + intros [[r Hr] | (pre & post & H)].
      * by exists EmptyString, r.
      * exists (String c pre), post. cbn. by rewrite H.
    + intros ([|x pre] & post & H).
      * left. by exists post.
      * right. exists pre, post. cbn in H. congruence.
Qed.

Lemma includes_intro (pre p post : string) :
  JsString.includes (pre +:+ p +:+ post) p = true.
Proof. apply includes_spec. eauto. Qed.

(** Every character of the string satisfies [p]. *)
Fixpoint allChars (p : ascii -> bool) (s : string) : bool :=
  match s with
  | EmptyString => true
  | String c s' => p c && allChars p s'
  end.

Lemma span_spec (p : ascii -> bool) (s a b : string) :
  span p s = (a, b) ->
  s = a +:+ b /\ allChars p a = true /\
  match b with String c _ => p c = false | EmptyString => True end.
Proof.
  revert a b. induction s as [|c s IH]; intros a b; cbn.
  - intros [= <- <-]. done.
  - destruct (p c) eqn:Hc.
    + destruct (span p s) as [a' b'] eqn:Hs. intros [= <- <-].
      destruct (IH _ _ eq_refl) as (-> & Ha & Hb). cbn. by rewrite Hc, Ha.
    + intros [= <- <-]. cbn. by rewrite Hc.
Qed.

Lemma span_app (p : ascii -> bool) (a : string) (c : ascii) (r : string) :
  allChars p a = true -> p c = false ->
  span p (a +:+ String c r) = (a, String c r).
Proof.
  intros Ha Hc. induction a as [|x a IH]; cbn in *.
  - by rewrite Hc.
  - apply andb_true_iff in Ha as [-> Ha]. by rewrite (IH Ha).
Qed.

Lemma dropStr_app (a b : string) :
  JsNumber.dropStr (String.length a) (a +:+ b) = b.
Proof.
  unfold JsNumber.dropStr. induction a as [|c a IH]; cbn.
  - rewrite Nat.sub_0_r. induction b as [|c b IH]; cbn; [done | by rewrite IH].
  - exact IH.
Qed.

Lemma dropStr_Point (r : string) : JsNumber.dropStr 6 ("Point(" +:+ r) = r.
Proof. exact (dropStr_app "Point(" r). Qed.

Definition notSpace (c : ascii) : bool := negb (Ascii.eqb c " ").
Definition notParen (c : ascii) : bool := negb (Ascii.eqb c ")").

(** A text that starts with [Point(g1 g2)], where [g1] has no space and
    [g2] no closing parenthesis and neither is empty, matches with the
    groups [g1] and [g2]. *)
Lemma matchPoint_point (g1 g2 post : string) :
  g1 <> EmptyString -> g2 <> EmptyString ->
  allChars notSpace g1 = true -> allChars notParen g2 = true ->
  matchPoint ("Point(" +:+ g1 +:+ " " +:+ g2 +:+ ")" +:+ post) = Some (g1, g2).
Proof.
  intros H1 H2 Hs Hp.
  assert (matchPointHere ("Point(" +:+ g1 +:+ " " +:+ g2 +:+ ")" +:+ post)
          = Some (g1, g2)) as Hhere.
  { unfold matchPointHere.
    replace (JsString.startsWith _ "Point(") with true
      by (symmetry; apply startsWith_spec; eauto).
    rewrite dropStr_Point.
    change (" " +:+ g2 +:+ ")" +:+ post) with (String " " (g2 +:+ String ")" post)).
    fold notSpace notParen. rewrite (span_app notSpace g1 " " _ Hs eq_refl).
    destruct g1 as [|c1 g1]; [done|].
    rewrite (span_app notParen g2 ")" _ Hp eq_refl).
    by destruct g2. }
  destruct g1 as [|c1 g1]; [done|].
  cbn [String.append matchPoint] in *. by rewrite Hhere.
Qed.

(** What is matched is an occurrence of the pattern. *)
Lemma matchPoint_sound (s g1 g2 : string) :
  matchPoint s = Some (g1, g2) ->
  (exists pre post, s = pre +:+ "Point(" +:+ g1 +:+ " " +:+ g2 +:+ ")" +:+ post) /\
  g1 <> EmptyString /\ g2 <> EmptyString /\
  allChars notSpace g1 = true /\ allChars notParen g2 = true.
Proof.
  assert (forall s, matchPointHere s = Some (g1, g2) ->
    (exists post, s = "Point(" +:+ g1 +:+ " " +:+ g2 +:+ ")" +:+ post) /\
    g1 <> EmptyString /\ g2 <> EmptyString /\
    allChars notSpace g1 = true /\ allChars notParen g2 = true) as Hhere.
  { clear s. intros s. unfold matchPointHere.
    destruct (JsString.startsWith s "Point(") eqn:Hsw; [|done].
    apply startsWith_spec in Hsw as [r ->].
    rewrite dropStr_Point.
    fold notSpace notParen.
    destruct (span notSpace r) as [a b] eqn:Ha.
    apply span_spec in Ha as (-> & Ha & Hb).
    destruct a as [|ca a]; [done|]. destruct b as [|cb b]; [done|].
    destruct (span notParen b) as [a2 b2] eqn:Ha2.
    apply span_spec in Ha2 as (-> & Ha2 & Hb2).
    destruct a2 as [|ca2 a2]; [done|]. destruct b2 as [|cb2 b2]; [done|].
    intros [= <- <-].
    assert (cb = " "%char) as ->.
    { unfold notSpace in Hb. apply negb_false_iff, Ascii.eqb_eq in Hb. done. }
    assert (cb2 = ")"%char) as ->.
    { unfold notParen in Hb2. apply negb_false_iff, Ascii.eqb_eq in Hb2. done. }
    split; [|done]. by exists b2. }
  induction s as [|c s IH]; cbn [matchPoint].
  - destruct (matchPointHere "") eqn:H; [|done].
    intros [= ->]. destruct (Hhere _ H) as ([post Hp] & ?). done.
  - destruct (matchPointHere (String c s)) eqn:H.
    + intros [= ->]. destruct (Hhere _ H) as ([post Hp] & ?).
      split; [|done]. exists EmptyString, post. done.
    + intros Hm. destruct (IH Hm) as ((pre & post & ->) & ?).
      split; [|done]. by exists (String c pre), post.
Qed.

(** ** The normalizer: [transformResults] *)

Import SparqlClient.

(** A row in which only [item] is bound. *)
Definition rowOf (uri : string) : Binding.t :=
  Binding.mk (mkTerm uri) None None None None None None None None None None.

Definition withCoord (b : Binding.t) (coord : string) : Binding.t :=
  Binding.mk (Binding.item b) (Binding.itemLabel b) (Binding.typeLabel b)
    (Some (mkTerm coord)) (Binding.locatedInLabel b) (Binding.width b)
    (Binding.length b) (Binding.surfaceArea b) (Binding.capacity b)
    (Binding.inception b) (Binding.description b).

Definition withTypeLabel (b : Binding.t) (label : string) : Binding.t :=
  Binding.mk (Binding.item b) (Binding.itemLabel b) (Some (mkTerm label))
    (Binding.coord b) (Binding.locatedInLabel b) (Binding.width b)
    (Binding.length b) (Binding.surfaceArea b) (Binding.capacity b)
    (Binding.inception b) (Binding.description b).

Definition withWidth (b : Binding.t) (width : string) : Binding.t :=
  Binding.mk (Binding.item b) (Binding.itemLabel b) (Binding.typeLabel b)
    (Binding.coord b) (Binding.locatedInLabel b) (Some (mkTerm width))
    (Binding.length b) (Binding.surfaceArea b) (Binding.capacity b)
    (Binding.inception b) (Binding.description b).

Definition resultOf (rows : list Binding.t) : RawResultSet :=
  mkRaw (Some (mkContainer (Some rows))).

Example transformBinding_id :
  WaterFeature.id (transformBinding (rowOf "http://www.wikidata.org/entity/Q12345"))
  = "Q12345".
Proof. reflexivity. Qed.

Example transformBinding_url :
  WaterFeature.wikidataUrl (transformBinding (rowOf "http://www.wikidata.org/entity/Q12345"))
  = "https://www.wikidata.org/wiki/Q12345".
Proof. reflexivity. Qed.

(** The coordinates of a row: present exactly when [coord] is bound, its
    value matches, and both parsed numbers are truthy. *)
Lemma location_spec (b : Binding.t) :
  WaterFeature.location (transformBinding b) =
    match Binding.coord b with
    | Some term =>
        match matchPoint (value term) with
        | Some (g1, g2) =>
            let longitude := JsNumber.parseFloat g1 in
            let latitude := JsNumber.parseFloat g2 in
            if JsNumber.toBoolean latitude && JsNumber.toBoolean longitude
            then Some (mkCoordinates latitude longitude)
            else None
        | None => None
        end
    | None => None
    end.
Proof.
  unfold transformBinding, parseCoord.
  destruct (Binding.coord b) as [term|]; [|done].
  destruct (matchPoint (value term)) as [[g1 g2]|]; done.
Qed.

Lemma location_absent (b : Binding.t) :
  Binding.coord b = None \/
  (exists term, Binding.coord b = Some term /\ matchPoint (value term) = None) ->
  WaterFeature.location (transformBinding b) = None.
Proof.
  intros [H | (term & H & Hm)]; rewrite location_spec, H; [done | by rewrite Hm].
Qed.

Example location_point_23_5_42_1 :
  WaterFeature.location (transformBinding (withCoord (rowOf "Q1") "Point(23.5 42.1)"))
  = Some (mkCoordinates (JsNumber.parseFloat "42.1") (JsNumber.parseFloat "23.5")).
Proof. vm_compute. reflexivity. Qed.

Example location_malformed :
  WaterFeature.location (transformBinding (withCoord (rowOf "Q1") "POINT(23.5,42.1)"))
  = None.
Proof. vm_compute. reflexivity. Qed.

(** C2, at a row the code drops: for [coord = "Point(0 42.1)"] the pattern
    matches with the groups [0] and [42.1], [parseFloat] reads the
    longitude [+0], and the record has no coordinates, because the test
    [latitude && longitude] takes the Number 0 for an absent value.  The
    sibling field [width], tested through its binding, keeps a parsed 0. *)
Theorem location_zero_dropped :
  let b := withCoord (rowOf "http://www.wikidata.org/entity/Q1") "Point(0 42.1)" in
  matchPoint "Point(0 42.1)" = Some ("0", "42.1") /\
  JsNumber.parseFloat "0" = S754_zero false /\
  JsNumber.toBoolean (JsNumber.parseFloat "42.1") = true /\
  WaterFeature.location (transformBinding b) = None /\
  WaterFeature.width (transformBinding (withWidth b "0")) = Some (S754_zero false).
Proof. vm_compute. repeat split; reflexivity. Qed.

(** The category the specification describes: the first keyword of the
    ordered table that the lower-cased label contains, [LAKE] when there is
    none or no label. *)
Definition categoryTable : list (string * WaterFeatureType) :=
  [("dam", DAM); ("reservoir", RESERVOIR); ("river", RIVER); ("lake", LAKE)].

Definition specCategory (label : option string) : WaterFeatureType :=
  match label with
  | Some label =>
      match List.find (fun kw => JsString.includes (JsString.toLowerCase label) kw.1)
                      categoryTable with
      | Some (_, category) => category
      | None => LAKE
      end
  | None => LAKE
  end.

Lemma type_spec (b : Binding.t) :
  WaterFeature.type (transformBinding b)
    = specCategory (value <$> Binding.typeLabel b).
Proof.
  unfold transformBinding. destruct (parseCoord _) as [lat lon]. cbn.
  unfold typeOf, specCategory.
  destruct (Binding.typeLabel b) as [term|]; cbn; [|done].
  repeat (destruct (JsString.includes _ _); [done|]). done.
Qed.

(** C4: the category of a record is the first match of the type label in
    the order dam, reservoir, river, lake, and [LAKE] without a match or
    without a label; "Reservoir Lake" is a [RESERVOIR] and "Artificial Dam"
    a [DAM]. *)
Theorem type_first_match (b : Binding.t) :
  WaterFeature.type (transformBinding b)
    = specCategory (value <$> Binding.typeLabel b) /\
  WaterFeature.type (transformBinding (withTypeLabel b "Reservoir Lake")) = RESERVOIR /\
  WaterFeature.type (transformBinding (withTypeLabel b "Artificial Dam")) = DAM /\
  WaterFeature.type (transformBinding (withTypeLabel b "waterfall")) = LAKE.
Proof.
  rewrite !type_spec. repeat split; reflexivity.
Qed.

(** C9: a result set without [results], without [results.bindings], or
    with no row is transformed to the empty array; [transformResults] is a
    total function to lists, it has no failing outcome. *)
Theorem transformResults_empty (res : RawResultSet) :
  results res = None \/
  (exists c, results res = Some c /\ (bindings c = None \/ bindings c = Some [])) ->
  transformResults res = [].
Proof.
  unfold transformResults.
  intros [-> | (c & -> & [-> | ->])]; reflexivity.
Qed.

Lemma transformResults_empty_witness :
  transformResults (mkRaw None) = [] /\
  transformResults (mkRaw (Some (mkContainer None))) = [] /\
  transformResults (resultOf []) = [].
Proof.
  split; [|split]; apply transformResults_empty.
  - left. reflexivity.
  - right. exists (mkContainer None). split; [reflexivity | left; reflexivity].
  - right. exists (mkContainer (Some [])). split; [reflexivity | right; reflexivity].
Defined.

(** C10: the record of a row without [itemLabel] has the name "Unknown";
    the name of a record is a string in every case. *)
Theorem name_default (rows : list Binding.t) (i : nat) (b : Binding.t) :
  rows !! i = Some b ->
  Binding.itemLabel b = None ->
  exists f, transformResults (resultOf rows) !! i = Some f /\
            WaterFeature.name f = "Unknown".
Proof.
  intros Hi Hl. exists (transformBinding b). split.
  - unfold transformResults, resultOf. cbn. by rewrite list_lookup_fmap, Hi.
  - unfold transformBinding. destruct (parseCoord _). cbn. by rewrite Hl.
Qed.

Lemma name_default_witness :
  exists f, transformResults (resultOf [rowOf "http://www.wikidata.org/entity/Q7"]) !! 0
            = Some f /\ WaterFeature.name f = "Unknown".
Proof.
  apply (name_default [rowOf "http://www.wikidata.org/entity/Q7"] 0
           (rowOf "http://www.wikidata.org/entity/Q7")); reflexivity.
Defined.

(** ** The query builder: [buildWaterFeaturesQuery] *)

Lemma includes_concat (x : string) (l : list string) :
  x ∈ l -> JsString.includes (JsString.concat l) x = true.
Proof.
  intros Hx. apply includes_spec.
  induction Hx as [x l | x y l Hx (pre & post & IH)].
  - exists EmptyString, (JsString.concat l). done.
  - exists (y +:+ pre), post. cbn [JsString.concat].
    by rewrite IH, append_assoc.
Qed.

(** The text of the capacity filter for the bound [n]. *)
Definition capacityClause (n : JsNumber.t) : string :=
  JsString.concat
    [ nl;
      "                ?item wdt:P2234 ?capacity."; nl;
      "                FILTER(?capacity >= "; JsNumber.toString n; ")."; nl;
      "            " ].

(** The text of the surface area filter for the bound [n]. *)
Definition surfaceAreaClause (n : JsNumber.t) : string :=
  JsString.concat
    [ nl;
      "                ?item wdt:P2046 ?surfaceArea."; nl;
      "                FILTER(?surfaceArea >= "; JsNumber.toString n; ")."; nl;
      "            " ].

Lemma capacityFilterOf_spec (minCapacity : option JsNumber.t) :
  capacityFilterOf minCapacity =
    match minCapacity with
    | Some n => if JsNumber.toBoolean n then capacityClause n else EmptyString
    | None => EmptyString
    end.
Proof. reflexivity. Qed.

Lemma surfaceAreaFilterOf_spec (minSurfaceArea : option JsNumber.t) :
  surfaceAreaFilterOf minSurfaceArea =
    match minSurfaceArea with
    | Some n => if JsNumber.toBoolean n then surfaceAreaClause n else EmptyString
    | None => EmptyString
    end.
Proof. reflexivity. Qed.

(** A truthy bound puts its clause in the text of the query. *)
Lemma capacity_clause_included (p : QueryParams) (n : JsNumber.t) :
  minCapacity p = Some n -> JsNumber.toBoolean n = true ->
  JsString.includes (buildWaterFeaturesQuery p) (capacityClause n) = true.
Proof.
  intros Hp Hn. unfold buildWaterFeaturesQuery, queryTemplate.
  rewrite capacityFilterOf_spec, Hp, Hn.
  apply includes_concat. rewrite list_elem_of_In.
  repeat first [left; reflexivity | right].
Qed.

Lemma surfaceArea_clause_included (p : QueryParams) (n : JsNumber.t) :
  minSurfaceArea p = Some n -> JsNumber.toBoolean n = true ->
  JsString.includes (buildWaterFeaturesQuery p) (surfaceAreaClause n) = true.
Proof.
  intros Hp Hn. unfold buildWaterFeaturesQuery, queryTemplate.
  rewrite surfaceAreaFilterOf_spec, Hp, Hn.
  apply includes_concat. rewrite list_elem_of_In.
  repeat first [left; reflexivity | right].
Qed.

Example capacity_clause_1000000 :
  capacityClause (JsNumber.ofZ 1000000) =
  JsString.concat
    [ nl;
      "                ?item wdt:P2234 ?capacity."; nl;
      "                FILTER(?capacity >= 1000000)."; nl;
      "            " ].
Proof. vm_compute. reflexivity. Qed.

Example query_of_dams :
  let q := buildWaterFeaturesQuery
             (mkParams (Some "DAM") None None None None None (Some 5%Z) (Some 10%Z)) in
  JsString.includes q "?item wdt:P31/wdt:P279* wd:Q12323." = true /\
  JsString.includes q "LIMIT 5" = true /\
  JsString.includes q "OFFSET 10" = true /\
  JsString.includes q "ORDER BY ASC(?name)" = true /\
  JsString.includes q "FILTER(?capacity >=" = false /\
  JsString.includes q "FILTER(?surfaceArea >=" = false /\
  JsString.includes q "?regionLabel" = false.
Proof. vm_compute. repeat split; reflexivity. Qed.

(** C3, at the bound the code drops: with [minCapacity] (or
    [minSurfaceArea]) set to the number 0 the text of the query is the one
    built with the filter unset, whatever the other parameters are; the
    test [if (minCapacity)] takes 0 for an unset filter, so no existence
    constraint and no [>=] clause of that attribute is added. *)
Theorem min_bound_zero_is_unset
    (type region : option string) (other : option JsNumber.t)
    (sortBy sortOrder : option string) (limit offset : option Z) (s : bool) :
  buildWaterFeaturesQuery
    (mkParams type region (Some (S754_zero s)) other sortBy sortOrder limit offset)
  = buildWaterFeaturesQuery
    (mkParams type region None other sortBy sortOrder limit offset) /\
  buildWaterFeaturesQuery
    (mkParams type region other (Some (S754_zero s)) sortBy sortOrder limit offset)
  = buildWaterFeaturesQuery
    (mkParams type region other None sortBy sortOrder limit offset) /\
  capacityFilterOf (Some (JsNumber.parseFloat "0")) = EmptyString /\
  surfaceAreaFilterOf (Some (JsNumber.parseFloat "0")) = EmptyString.
Proof. repeat split; reflexivity. Qed.

(** ** The fingerprint: [hashString] *)

Lemma toInt32_wrap (z : Z) : exists k : Z, Int32.toInt32 z = (z - 2 ^ 32 * k)%Z.
Proof.
  exists ((z + 2 ^ 31) / 2 ^ 32)%Z. unfold Int32.toInt32.
  rewrite Z.mod_eq by lia. lia.
Qed.

Lemma toInt32_shift (z k : Z) : Int32.toInt32 (z - 2 ^ 32 * k) = Int32.toInt32 z.
Proof.
  unfold Int32.toInt32. f_equal.
  replace (z - 2 ^ 32 * k + 2 ^ 31)%Z with (z + 2 ^ 31 + (- k) * 2 ^ 32)%Z by lia.
  apply Z_mod_plus_full.
Qed.

Lemma toInt32_range (z : Z) : (- 2 ^ 31 <= Int32.toInt32 z < 2 ^ 31)%Z.
Proof.
  unfold Int32.toInt32.
  pose proof (Z.mod_pos_bound (z + 2 ^ 31) (2 ^ 32) ltac:(lia)). lia.
Qed.

Lemma toInt32_idem (z : Z) : Int32.toInt32 (Int32.toInt32 z) = Int32.toInt32 z.
Proof.
  destruct (toInt32_wrap z) as [k Hk].
  pose proof (toInt32_shift z k) as H. by rewrite <- Hk in H.
Qed.

(** One turn of the loop multiplies by 31 and adds the character, modulo
    2^32. *)
Lemma hashStep_closed (hash : Z) (c : ascii) :
  hashStep hash c = Int32.toInt32 (31 * hash + JsString.charCode c).
Proof.
  unfold hashStep, Int32.and, Int32.shl. cbv zeta.
  rewrite Z.land_diag, toInt32_idem.
  change (5 mod 32)%Z with 5%Z. rewrite Z.shiftl_mul_pow2 by lia.
  destruct (toInt32_wrap hash) as [k1 ->].
  destruct (toInt32_wrap ((hash - 2 ^ 32 * k1) * 2 ^ 5)) as [k2 ->].
  replace ((hash - 2 ^ 32 * k1) * 2 ^ 5 - 2 ^ 32 * k2 - hash + JsString.charCode c)%Z
    with (31 * hash + JsString.charCode c - 2 ^ 32 * (32 * k1 + k2))%Z by lia.
  apply toInt32_shift.
Qed.

(** The polynomial in 31 of the character codes, continuing [acc]. *)
Fixpoint polyLoop (acc : Z) (str : string) {struct str} : Z :=
  match str with
  | EmptyString => acc
  | String c str' => polyLoop (31 * acc + JsString.charCode c) str'
  end.

Lemma polyLoop_shift (acc k : Z) (str : string) :
  exists k', polyLoop (acc - 2 ^ 32 * k) str = (polyLoop acc str - 2 ^ 32 * k')%Z.
Proof.
  revert acc k. induction str as [|c str IH]; intros acc k; cbn.
  - by exists k.
  - replace (31 * (acc - 2 ^ 32 * k) + JsString.charCode c)%Z
      with (31 * acc + JsString.charCode c - 2 ^ 32 * (31 * k))%Z by lia.
    apply IH.
Qed.

Lemma hashLoop_closed (acc : Z) (str : string) :
  hashLoop (Int32.toInt32 acc) str = Int32.toInt32 (polyLoop acc str).
Proof.
  revert acc. induction str as [|c str IH]; intros acc; cbn [hashLoop polyLoop].
  - done.
  - rewrite hashStep_closed, IH.
    destruct (toInt32_wrap acc) as [k ->].
    replace (31 * (acc - 2 ^ 32 * k) + JsString.charCode c)%Z
      with (31 * acc + JsString.charCode c - 2 ^ 32 * (31 * k))%Z by lia.
    destruct (polyLoop_shift (31 * acc + JsString.charCode c) (31 * k) str) as [k' ->].
    apply toInt32_shift.
Qed.

(** The text of an integer starts with a digit or with the minus sign. *)
Definition isKeyStart (c : ascii) : bool :=
  JsNumber.isDigit c || Ascii.eqb c "-".

Lemma ofZ_head (z : Z) :
  exists c r, JsString.ofZ z = String c r /\ isKeyStart c = true.
Proof.
  unfold JsString.ofZ. destruct (Z.to_int z) as [d|d]; cbn.
  - destruct d; cbn; eauto.
  - eauto.
Qed.

Lemma hashString_head (str : string) :
  exists c r, hashString str = String c r /\ isKeyStart c = true.
Proof. apply ofZ_head. Qed.

(** A fingerprint is never the key of a type cache or of a feature. *)
Lemma hashString_not_ALL (str type : string) : hashString str <> "ALL_" +:+ type.
Proof.
  destruct (hashString_head str) as (c & r & -> & Hc). cbn. intros [= -> _]. done.
Qed.


Section Fingerprint.
Context {V R : Type}.

(** C6: the key of a text is determined by the text alone: it is the
    decimal text of the polynomial in 31 of its character codes wrapped to
    32 bits.  In whatever world the query cache is written or read, the
    slot is the one of that key: [cacheQuery] stores under [hashString s]
    and [getCachedQuery] is the [get] of [hashString s]. *)
Theorem hashString_deterministic (s : string) (w1 w2 : World V R) (d : V) (ttl : JsInt) :
  hashString s = JsString.ofZ (Int32.toInt32 (polyLoop 0 s)) /\
  cache (CacheManager.cacheQuery s d (Some ttl) w1).2 !! hashString s
    = Some (mkEntry d (addTtl (nextNow w1) ttl)) /\
  CacheManager.getCachedQuery s w2 = CacheManager.get (hashString s) w2.
Proof.
  split; [|split].
  - unfold hashString. f_equal. exact (hashLoop_closed 0 s).
  - unfold CacheManager.cacheQuery. rewrite set_run. cbn. apply lookup_insert_eq.
  - reflexivity.
Qed.

End Fingerprint.

(** ** The retrieval methods *)

(** Two worlds with the same configuration, clock and endpoint. *)
Definition sameEnv (w w' : W) : Prop :=
  defaultTTL w' = defaultTTL w /\ clock w' = clock w /\ endpoint w' = endpoint w.

Lemma sameEnv_refl (w : W) : sameEnv w w.
Proof. done. Qed.


(** What a [get] does to the world: it may read the clock and may delete
    the entry of its key, nothing else. *)
Lemma get_frame (key : string) (w : W) :
  let w' := (CacheManager.get key w).2 in
  sameEnv w w' /\ sent w' = sent w /\
  (forall k, k <> key -> cache w' !! k = cache w !! k) /\
  (cache w' !! key = cache w !! key \/ cache w' !! key = None).
Proof.
  cbn zeta. destruct (cache w !! key) as [e|] eqn:H.
  - rewrite (get_present _ _ _ H). destruct (nowGt _ _); cbn.
    + split_and!; try done.
      * intros k Hk. by apply lookup_delete_ne.
      * right. apply lookup_delete_eq.
    + split_and!; try done. by left.
  - rewrite (get_absent _ _ H). cbn. split_and!; try done. by left.
Qed.

(** The world after the request of [q] has been sent. *)
Definition afterSend (w : W) (q : string) : W :=
  mkWorld (cache w) (defaultTTL w) (clock w) (reads w) (endpoint w) (q :: sent w).

(** [query] when the cache has no live entry for the text: one request
    goes out, and an ok body is cached under the fingerprint with the default
    ttl and returned. *)
Definition queryMiss (q : string) (w : W) : Outcome JsValue * W :=
  match endpoint w (List.length (sent w)) q with
  | FetchRejected => (Throw Rejected, afterSend w q)
  | NotOk error => (Throw (Error ("SPARQL query failed: " +:+ error)), afterSend w q)
  | OkJson result =>
      (Return (Raw result),
       withCache (tick (afterSend w q))
         (<[hashString q := mkEntry (Raw result)
                              (addTtl (nextNow w) (defaultTTL w))]> (cache w)))
  end.

Lemma query_run (q : string) (w : W) :
  query q w =
    match cache w !! hashString q with
    | Some e =>
        if nowGt (nextNow w) (expiryTime e)
        then queryMiss q (withCache (tick w) (delete (hashString q) (cache w)))
        else (Return (data e), tick w)
    | None => queryMiss q w
    end.
Proof.
  unfold query, bind, CacheManager.getCachedQuery.
  assert (forall w0 : W,
    (let (o, w') := fetch q w0 in
     match o with
     | Return a =>
         match a with
         | FetchRejected => throw Rejected
         | NotOk error => throw (Error ("SPARQL query failed: " +:+ error))
         | OkJson result =>
             fun w1 =>
               let (o1, w'0) := CacheManager.cacheQuery q (Raw result) None w1 in
               match o1 with
               | Return _ => ret (Raw result) w'0
               | Throw e => (Throw e, w'0)
               end
         end w'
     | Throw e => (Throw e, w')
     end) = queryMiss q w0) as Hmiss.
  { intros w0. unfold fetch, queryMiss. cbn.
    destruct (endpoint w0 (List.length (sent w0)) q); reflexivity. }
  destruct (cache w !! hashString q) as [e|] eqn:H.
  - rewrite (get_present _ _ _ H). destruct (nowGt _ _); [|done]. apply Hmiss.
  - rewrite (get_absent _ _ H). apply Hmiss.
Qed.

(** [query] touches no key but the fingerprint of its text. *)
Lemma query_frame (q : string) (w : W) (k : string) :
  k <> hashString q -> cache (query q w).2 !! k = cache w !! k.
Proof.
  intros Hk. rewrite query_run.
  assert (forall w0 : W, cache (queryMiss q w0).2 !! k = cache w0 !! k) as Hmiss.
  { intros w0. unfold queryMiss.
    destruct (endpoint w0 _ q); cbn; [done | done |]. by rewrite lookup_insert_ne. }
  destruct (cache w !! hashString q) as [e|]; [|apply Hmiss].
  destruct (nowGt _ _); [|done].
  rewrite Hmiss. cbn. by rewrite lookup_delete_ne.
Qed.

Lemma query_sameEnv (q : string) (w : W) : sameEnv w (query q w).2.
Proof.
  rewrite query_run.
  assert (forall w0 : W, sameEnv w0 (queryMiss q w0).2) as Hmiss.
  { intros w0. unfold queryMiss. by destruct (endpoint w0 _ q). }
  destruct (cache w !! hashString q) as [e|]; [|apply Hmiss].
  destruct (nowGt _ _); [|done]. exact (Hmiss _).
Qed.

(** *** [getWaterFeatureById] *)

(** Under the keys of the type caches the cache holds arrays. *)
Definition arraysAt (w : W) (types : list string) : Prop :=
  forall type e, type ∈ types -> cache w !! ("ALL_" +:+ type) = Some e ->
    exists l, data e = Features l.






Lemma typeKey_inj (a b : string) : "ALL_" +:+ a = "ALL_" +:+ b -> a = b.
Proof. cbn. by intros [= ->]. Qed.

Lemma typeKey_not_FEATURE (type id : string) : "FEATURE_" +:+ id <> "ALL_" +:+ type.
Proof. cbn. by intros [=]. Qed.





(** *** [preloadCache] *)

(** One turn of the loop of [preloadCache]: the [try] block and its
    [catch]. *)
Definition preloadStep (type : string) : Method unit :=
  tryCatch (preloadType type) (fun error => ret tt).

Lemma preloadStep_run (type : string) (w : W) :
  preloadStep type w =
    match query (buildWaterFeaturesQuery (paramsOfType type)) w with
    | (Return results_, wq) =>
        (Return tt,
         withCache (tick wq)
           (<["ALL_" +:+ type :=
                mkEntry (Features (transformResults (asResults results_)))
                        (Int (nextNow wq + twelveHours))]> (cache wq)))
    | (Throw error, wq) => (Return tt, wq)
    end.
Proof.
  unfold preloadStep, tryCatch, preloadType, bind.
  destruct (query _ w) as [[v|e] wq]; reflexivity.
Qed.

Lemma preloadLoop_cons (type : string) (rest : list string) (w : W) :
  preloadLoop (type :: rest) w = preloadLoop rest (preloadStep type w).2.
Proof.
  cbn [preloadLoop]. unfold bind. fold (preloadStep type).
  rewrite preloadStep_run. by destruct (query _ w) as [[v|e] wq].
Qed.

(** The loop returns whatever the endpoint does. *)
Lemma preloadLoop_returns (types : list string) (w : W) :
  (preloadLoop types w).1 = Return tt.
Proof.
  revert w. induction types as [|type rest IH]; intros w; [done|].
  rewrite preloadLoop_cons. apply IH.
Qed.

Lemma preloadLoop_app (l1 l2 : list string) (w : W) :
  preloadLoop (l1 ++ l2) w = preloadLoop l2 (preloadLoop l1 w).2.
Proof.
  revert w. induction l1 as [|type l1 IH]; intros w; [done|].
  cbn [app]. rewrite !preloadLoop_cons. apply IH.
Qed.

(** A turn touches the fingerprint of its query and the key of its type. *)
Lemma preloadStep_frame (type : string) (w : W) (k : string) :
  k <> hashString (buildWaterFeaturesQuery (paramsOfType type)) ->
  k <> "ALL_" +:+ type ->
  cache (preloadStep type w).2 !! k = cache w !! k.
Proof.
  intros Hq Hk. rewrite preloadStep_run.
  pose proof (query_frame (buildWaterFeaturesQuery (paramsOfType type)) w k Hq) as H.
  destruct (query _ w) as [[v|e] wq]; cbn in *; [|done].
  by rewrite lookup_insert_ne.
Qed.

(** The turns of other types leave the entry of a type cache alone. *)
Lemma preloadLoop_frame (types : list string) (w : W) (type : string) :
  type ∉ types ->
  cache (preloadLoop types w).2 !! ("ALL_" +:+ type) = cache w !! ("ALL_" +:+ type).
Proof.
  revert w. induction types as [|t rest IH]; intros w Hnot; [done|].
  apply not_elem_of_cons in Hnot as [Hne Hnot].
  rewrite preloadLoop_cons, IH by done.
  apply preloadStep_frame.
  - intros Heq. symmetry in Heq. by apply hashString_not_ALL in Heq.
  - intros Heq. by apply typeKey_inj in Heq.
Qed.

(** C8: [preloadCache] returns normally for every endpoint.  For the
    [i]-th type, let [wi] be the world its turn starts in: when its query
    returns, the final cache holds under [ALL_<type>] the transformed list
    with an expiry of twelve hours after the time of the [set]; when its
    query throws, the entry of that key is what it was, and the turns of the
    remaining types are made all the same. *)
Theorem preloadCache_isolates_failures (w : W) (i : nat) (type : string) :
  waterFeatureTypes !! i = Some type ->
  let wi := (preloadLoop (take i waterFeatureTypes) w).2 in
  let wend := (preloadCache w).2 in
  (preloadCache w).1 = Return tt /\
  twelveHours = 43200000%Z /\
  wend = (preloadLoop (drop (S i) waterFeatureTypes) (preloadStep type wi).2).2 /\
  match query (buildWaterFeaturesQuery (paramsOfType type)) wi with
  | (Return results_, wq) =>
      cache wend !! ("ALL_" +:+ type)
        = Some (mkEntry (Features (transformResults (asResults results_)))
                        (Int (nextNow wq + twelveHours)))
  | (Throw error, wq) =>
      (preloadStep type wi).1 = Return tt /\
      cache wend !! ("ALL_" +:+ type) = cache wi !! ("ALL_" +:+ type)
  end.
Proof.
  intros Hi wi wend.
  assert (wend = (preloadLoop (drop (S i) waterFeatureTypes) (preloadStep type wi).2).2)
    as Hend.
  { subst wend wi. unfold preloadCache.
    rewrite <- (take_drop_middle waterFeatureTypes i type Hi) at 1.
    by rewrite preloadLoop_app, preloadLoop_cons. }
  assert (type ∉ drop (S i) waterFeatureTypes) as Hnot.
  { assert (NoDup waterFeatureTypes) as Hnd
      by (apply (bool_decide_unpack (NoDup waterFeatureTypes)); by vm_compute).
    rewrite <- (take_drop_middle waterFeatureTypes i type Hi) in Hnd.
    apply NoDup_app in Hnd as (_ & _ & Hnd). by apply NoDup_cons in Hnd as [? _]. }
  split; [apply preloadLoop_returns|]. split; [done|]. split; [done|].
  rewrite Hend, preloadLoop_frame by done.
  rewrite preloadStep_run.
  pose proof (query_frame (buildWaterFeaturesQuery (paramsOfType type)) wi
                ("ALL_" +:+ type)) as Hframe.
  destruct (query _ wi) as [[v|e] wq]; cbn in *.
  - apply lookup_insert_eq.
  - split; [done|]. apply Hframe.
    intros Heq. symmetry in Heq. by apply hashString_not_ALL in Heq.
Qed.

(** *** The type caches hold arrays *)

(** No method of the client stores anything but an array under the key of
    a type cache: [arraysAt] is kept by [query], by [preloadCache] and by
    [getWaterFeatureById], whatever their outcome. *)
Lemma query_arrays (q : string) (w : W) (types : list string) :
  arraysAt w types -> arraysAt (query q w).2 types.
Proof.
  intros Harr type e Hin He. apply (Harr type e Hin).
  rewrite <- He. symmetry. apply query_frame.
  intros Heq. symmetry in Heq. by apply hashString_not_ALL in Heq.
Qed.

Lemma preloadStep_arrays (type : string) (w : W) (types : list string) :
  arraysAt w types -> arraysAt (preloadStep type w).2 types.
Proof.
  intros Harr. rewrite preloadStep_run.
  pose proof (query_arrays (buildWaterFeaturesQuery (paramsOfType type)) w types Harr) as Hq.
  destruct (query _ w) as [[v|e] wq]; cbn [snd] in *; [|done].
  intros ty e Hin He. cbn [cache withCache] in He.
  destruct (decide ("ALL_" +:+ type = "ALL_" +:+ ty)) as [Heq|Hne].
  - rewrite Heq, lookup_insert_eq in He. injection He as <-. eauto.
  - rewrite lookup_insert_ne in He by done. by apply (Hq ty e).
Qed.

Lemma preloadLoop_arrays (l : list string) (w : W) (types : list string) :
  arraysAt w types -> arraysAt (preloadLoop l w).2 types.
Proof.
  revert w. induction l as [|type rest IH]; intros w Harr; [done|].
  rewrite preloadLoop_cons. by apply IH, preloadStep_arrays.
Qed.

Lemma scan_shrinks (id : string) (types : list string) (w : W) (k : string) (x : CacheEntry JsValue) :
  cache (findInTypeCaches id types w).2 !! k = Some x -> cache w !! k = Some x.
Proof.
  revert w. induction types as [|t rest IH]; intros w; [done|].
  cbn [findInTypeCaches]. unfold bind.
  destruct (cache w !! ("ALL_" +:+ t)) as [e|] eqn:He.
  - rewrite (get_present _ _ _ He). destruct (nowGt _ _).
    + intros H. apply IH in H. cbn in H. by apply lookup_delete_Some in H as [_ H].
    + destruct (data e) as [l0| |]; [|done..].
      destruct (findById id l0); [done|]. intros H. by apply IH in H.
  - rewrite (get_absent _ _ He). apply IH.
Qed.

Lemma getWaterFeatureById_arrays (id : string) (w : W) (types : list string) :
  arraysAt w types -> arraysAt (getWaterFeatureById id w).2 types.
Proof.
  intros Harr. unfold getWaterFeatureById, bind.
  assert (arraysAt (findInTypeCaches id waterFeatureTypes w).2 types) as Hscan.
  { intros ty e Hin He. apply (Harr ty e Hin). by eapply scan_shrinks. }
  destruct (findInTypeCaches id waterFeatureTypes w) as [[[f|]|err] w0]; [done| |done].
  cbn [snd] in Hscan.
  pose proof (query_arrays (buildWaterFeatureByIdQuery id) w0 types Hscan) as Hq.
  destruct (query _ w0) as [[v|err] wq]; [|done]. cbn [snd] in Hq.
  destruct (transformResults (asResults v)) as [|feature rest]; [done|].
  rewrite set_default_run, set_run. cbn [bind ret snd fst].
  intros ty e Hin He. cbn [cache withCache snd] in He.
  rewrite lookup_insert_ne in He; [by apply (Hq ty e)|].
  apply typeKey_not_FEATURE.
Qed.

(** ** The theorems at sample worlds *)

Definition row42 : Binding.t :=
  Binding.mk (mkTerm "http://www.wikidata.org/entity/Q42")
    (Some (mkTerm "Iskar Reservoir")) (Some (mkTerm "reservoir"))
    (Some (mkTerm "Point(23.5 42.1)")) None None None None None None None.

Definition feature42 : WaterFeature.t := transformBinding row42.

(** No request is answered. *)
Definition deadEndpoint : nat -> string -> Response RawResultSet :=
  fun _ _ => FetchRejected.


(** The second request fails, the others are answered with [row42]. *)
Definition flakyEndpoint : nat -> string -> Response RawResultSet :=
  fun n _ => if (n =? 1)%nat then NotOk "upstream timeout" else OkJson (resultOf [row42]).

(** The clock shows 1000 ms, then 1100 ms, then 1200 ms, and so on. *)
Definition stepClock : nat -> Z := fun n => (1000 + 100 * Z.of_nat n)%Z.

Definition emptyWorld (endpoint : nat -> string -> Response RawResultSet) : W :=
  mkWorld ∅ (Int 3600000) stepClock 0 endpoint [].


Lemma get_after_set_witness :
  let w1 := (CacheManager.set "k" (Feature feature42) (Some (Int 150))
               (emptyWorld deadEndpoint)).2 in
  CacheManager.get "k" w1 = (Return (Some (Feature feature42)), tick w1) /\
  CacheManager.get "k" (tick w1)
    = (Return None, withCache (tick (tick w1)) (delete "k" (cache w1))).
Proof.
  intros w1. split.
  - exact (proj1 (proj2 (get_after_set (emptyWorld deadEndpoint) w1
                           "k" (Feature feature42) 150 eq_refl))).
  - exact (proj1 (proj2 (get_after_set (emptyWorld deadEndpoint) (tick w1)
                           "k" (Feature feature42) 150 eq_refl))).
Defined.




(** The world [preloadCache] ends in against the endpoint whose second
    answer fails. *)
Definition flakyEnd : W := (preloadCache (emptyWorld flakyEndpoint)).2.

(** In that run the query of the reservoirs, the third, is answered. *)
Lemma flaky_reservoir_query :
  let r := query (buildWaterFeaturesQuery (paramsOfType "RESERVOIR"))
             (preloadLoop (take 2 waterFeatureTypes) (emptyWorld flakyEndpoint)).2 in
  r.1 = Return (Raw (resultOf [row42])) /\ nextNow r.2 = 1300%Z.
Proof. vm_compute. split; reflexivity. Qed.

Lemma preloadCache_isolates_failures_witness :
  (preloadCache (emptyWorld flakyEndpoint)).1 = Return tt /\
  cache flakyEnd !! "ALL_RESERVOIR"
    = Some (mkEntry (Features [feature42]) (Int (1300 + 43200000))).
Proof.
  pose proof (preloadCache_isolates_failures (emptyWorld flakyEndpoint) 2 "RESERVOIR" eq_refl)
    as H.
  pose proof flaky_reservoir_query as L.
  cbv zeta in H, L. destruct H as (Hret & _ & _ & H).
  split; [exact Hret|]. revert H L.
  destruct (query _ _) as [o wq]. cbn [fst snd].
  intros H [-> Hnow]. rewrite Hnow in H. exact H.
Defined.

(** The run of [preloadCache] against the endpoint whose second answer
    fails: the lakes are stored, the dams are skipped, the reservoirs and
    the rivers are stored all the same; the clock is read twice for each
    stored type. *)
Example preloadCache_flaky_run :
  let wend := flakyEnd in
  (preloadCache (emptyWorld flakyEndpoint)).1 = Return tt /\
  cache wend !! "ALL_LAKE"
    = Some (mkEntry (Features [feature42]) (Int (1100 + 43200000))) /\
  cache wend !! "ALL_DAM" = None /\
  cache wend !! "ALL_RESERVOIR"
    = Some (mkEntry (Features [feature42]) (Int (1300 + 43200000))) /\
  cache wend !! "ALL_RIVER"
    = Some (mkEntry (Features [feature42]) (Int (1500 + 43200000))) /\
  List.length (sent wend) = 4%nat.
Proof. vm_compute. repeat split; reflexivity. Qed.
